(** * box-content-preview: viewer constants, log layer and log transformers

    A shallow embedding of three modules of the preview library:

    - [src/lib/events.js]: the [VIEWER_EVENT] and [ERROR_CODE] constant objects;
    - the log transformers ([makeBatchContainer], [transformGeneric],
      [transformWarnings], [transformInfo], [transformErrors], [transformMetrics]);
    - the [LogLayer] class that gates console output and forwards to the
      global Box Logger.

    JavaScript objects that are used as structs are records, objects that are
    used as constant tables are association lists in source order, arrays are
    lists, and the methods of [LogLayer] are computations in a small
    state-and-exception monad over the part of the JavaScript world they touch. *)

From Stdlib Require Import String Ascii List ZArith Bool Arith Lia.
Import ListNotations.
Open Scope string_scope.

(* ================================================================== *)
(** * Definitions *)
(* ================================================================== *)

(** ** JavaScript values

    Values that the modelled code only stores and passes on (log messages,
    metric values, method arguments).  Objects are association lists in
    insertion order. *)

#[local] Unset Elimination Schemes.
Inductive JsVal : Type :=
| JUndefined
| JNull
| JBool (b : bool)
| JNum (n : Z)
| JStr (s : string)
| JArr (elems : list JsVal)
| JObj (props : list (string * JsVal)).
#[local] Set Elimination Schemes.

(** ** Constant objects ([src/lib/events.js]) *)

(** A constant object literal: its properties in source order. *)
Definition ConstObject := list (string * string).

(** [Object.keys] and [Object.values]. *)
Definition keys (o : ConstObject) : list string := map fst o.
Definition values (o : ConstObject) : list string := map snd o.

(** Property read [o.k]; [None] stands for [undefined]. *)
Fixpoint get (o : ConstObject) (k : string) : option string :=
  match o with
  | [] => None
  | (k', v) :: rest => if String.eqb k k' then Some v else get rest k
  end.

Definition VIEWER_EVENT : ConstObject :=
  [ ("download", "download");
    ("reload", "reload");
    ("load", "load");
    ("progressStart", "progressstart");
    ("progressEnd", "progressend");
    ("notificationShow", "notificationshow");
    ("notificationHide", "notificationhide");
    ("mediaEndAutoplay", "mediaendautoplay");
    ("error", "error");
    ("default", "viewerevent") ].

Definition ERROR_CODE : ConstObject :=
  [ ("annotationsLoadFail", "error_annotations_load");
    ("invalidCacheAttempt", "error_invalid_file_for_cache");
    ("prefetchFileId", "error_prefetch_file_id");
    ("rateLimit", "error_rate_limit");
    ("retriesExceeded", "error_retries_exceeded") ].

(** *** Predicates on strings used to describe the constants *)

(** Boolean test that a list of strings has no repetition. *)
Fixpoint nodupb (l : list string) : bool :=
  match l with
  | [] => true
  | x :: rest => negb (existsb (String.eqb x) rest) && nodupb rest
  end.

(** A lowercase ASCII letter, ['a'] to ['z']. *)
Definition is_lower_letter (c : ascii) : bool :=
  (97 <=? nat_of_ascii c)%nat && (nat_of_ascii c <=? 122)%nat.

Fixpoint string_forall (p : ascii -> bool) (s : string) : bool :=
  match s with
  | EmptyString => true
  | String c rest => p c && string_forall p rest
  end.

(** [String.prototype.toLowerCase] on ASCII text. *)
Definition lower_ascii (c : ascii) : ascii :=
  let n := nat_of_ascii c in
  if ((65 <=? n)%nat && (n <=? 90)%nat)%bool then ascii_of_nat (n + 32) else c.

Fixpoint toLowerCase (s : string) : string :=
  match s with
  | EmptyString => EmptyString
  | String c rest => String (lower_ascii c) (toLowerCase rest)
  end.

(** ** Constants imported from [logConstants.js] and [metricsConstants.js]

    The log layer and the transformers import [LOG_TYPES], [CONSOLE_LEVELS],
    [LOG_CODES] and [METRIC_CONTROL].  The modules that define them are not
    among the sources at hand, so their values are parameters of the model:
    log types, log codes and the control sentinel are strings, console levels
    are numbers. *)

Class LogConstants : Type := {
  LOG_TYPES_info : string;
  LOG_TYPES_warning : string;
  LOG_TYPES_error : string;
  LOG_TYPES_uncaught_error : string;
  LOG_TYPES_metric : string;
  CONSOLE_LEVELS_info : Z;
  CONSOLE_LEVELS_warning : Z;
  CONSOLE_LEVELS_error : Z;
  CONSOLE_LEVELS_silent : Z;
  LOG_CODES_error : string;
  LOG_CODES_info : string;
  LOG_CODES_warning : string;
  LOG_CODES_metric : string;
  METRIC_CONTROL : string
}.

(** ** Log transformers *)

(** A buffered log: [{ timestamp, message }].  Generic logs carry an opaque
    message, metric logs carry [{ metricCode, metricValue }]. *)
Record LogRecord (M : Type) : Type := mkLog {
  timestamp : string;
  message : M
}.
Arguments mkLog {M} _ _.
Arguments timestamp {M} _.
Arguments message {M} _.

Record MetricMessage : Type := mkMetric {
  metricCode : string;
  metricValue : JsVal
}.

(** An entry of a batch: [{ timestamp, code, value }]. *)
Record BatchEvent : Type := mkEvent {
  ev_timestamp : string;
  ev_code : string;
  ev_value : JsVal
}.

(** A batch: [{ event_type, events }]. *)
Record Batch : Type := mkBatch {
  event_type : string;
  events : list BatchEvent
}.

(** [Array.prototype.push]: the array grows at its end. *)
Definition push {A : Type} (arr : list A) (x : A) : list A := arr ++ [x].

(** [batch.events.push(e)]. *)
Definition events_push (batch : Batch) (e : BatchEvent) : Batch :=
  {| event_type := event_type batch; events := push (events batch) e |}.

Definition makeBatchContainer (event : string) : Batch :=
  {| event_type := event; events := [] |}.

(** [logs.forEach] runs its callback over the logs from first to last; the
    callback pushes on the events of the one batch. *)
Definition transformGeneric (event : string) (logs : list (LogRecord JsVal)) : Batch :=
  fold_left
    (fun batch log =>
       let timestamp := timestamp log in
       let message := message log in
       events_push batch
         {| ev_timestamp := timestamp; ev_value := message; ev_code := event |})
    logs (makeBatchContainer event).

(** The entry pushed on [controlEvents]: [{ timestamp, code: metricValue }]. *)
Definition controlEvent (timestamp : string) (metricValue : JsVal) : JsVal :=
  JObj [("timestamp", JStr timestamp); ("code", metricValue)].

Section Transformers.
Context {K : LogConstants}.

Definition transformWarnings (logs : list (LogRecord JsVal)) : Batch :=
  transformGeneric LOG_CODES_warning logs.

Definition transformInfo (logs : list (LogRecord JsVal)) : Batch :=
  transformGeneric LOG_CODES_info logs.

Definition transformErrors (logs : list (LogRecord JsVal)) : Batch :=
  transformGeneric LOG_CODES_error logs.

(** One step of the [forEach] of [transformMetrics], on the pair of the batch
    and the [controlEvents] array. *)
Definition transformMetrics_step
    (acc : Batch * list JsVal) (log : LogRecord MetricMessage) : Batch * list JsVal :=
  let (batch, controlEvents) := acc in
  let timestamp := timestamp log in
  let message := message log in
  let metricCode := metricCode message in
  let metricValue := metricValue message in
  if String.eqb metricCode METRIC_CONTROL
  then (batch, push controlEvents (controlEvent timestamp metricValue))
  else (events_push batch
          {| ev_timestamp := timestamp; ev_code := metricCode; ev_value := metricValue |},
        controlEvents).

(** [transformMetrics(logs)].  [getISOTime()] reads the clock; [now] is the
    string it returns during this call (it is only read when there are control
    events). *)
Definition transformMetrics (now : string) (logs : list (LogRecord MetricMessage)) : Batch :=
  let (batch, controlEvents) :=
    fold_left transformMetrics_step logs (makeBatchContainer LOG_CODES_metric, []) in
  if (0 <? length controlEvents)%nat
  then events_push batch
         {| ev_timestamp := now; ev_code := METRIC_CONTROL; ev_value := JArr controlEvents |}
  else batch.

(** *** Vocabulary for the statements about [transformMetrics] *)

(** A control record: its [metricCode] is the control sentinel. *)
Definition is_control (log : LogRecord MetricMessage) : bool :=
  String.eqb (metricCode (message log)) METRIC_CONTROL.

Definition is_measure (log : LogRecord MetricMessage) : bool :=
  negb (is_control log).

(** The batch entry of a measured metric. *)
Definition metric_event (log : LogRecord MetricMessage) : BatchEvent :=
  {| ev_timestamp := timestamp log;
     ev_code := metricCode (message log);
     ev_value := metricValue (message log) |}.

(** The control entry of a control record. *)
Definition control_entry (log : LogRecord MetricMessage) : JsVal :=
  JObj [("timestamp", JStr (timestamp log)); ("code", metricValue (message log))].

(** The events of a metric batch when the value of the trailing event is
    [value]. *)
Definition metric_events_with
    (now : string) (logs : list (LogRecord MetricMessage)) (value : JsVal) : list BatchEvent :=
  map metric_event (filter is_measure logs) ++
  [ {| ev_timestamp := now; ev_code := METRIC_CONTROL; ev_value := value |} ].

(** The trailing value read as the bare list of the control records'
    [metricValue] fields. *)
Definition bare_codes (logs : list (LogRecord MetricMessage)) : JsVal :=
  JArr (map (fun log => metricValue (message log)) (filter is_control logs)).

(** The trailing value as a list of control entries. *)
Definition control_entries (logs : list (LogRecord MetricMessage)) : JsVal :=
  JArr (map control_entry (filter is_control logs)).

End Transformers.

(** ** The log layer ([LogLayer])

    *** The part of the JavaScript world the class touches *)

(** A reference to a Logger object. *)
Definition LoggerRef := nat.

(** The three console functions the layer prints with. *)
Inductive ConsoleFunction : Type :=
| console_log
| console_warn
| console_error.

(** The methods that the layer calls on the Logger. *)
Inductive LoggerMethod : Type :=
| Logger_info
| Logger_warn
| Logger_error
| Logger_metric
| Logger_setFile
| Logger_setContentType
| Logger_setupNetworkLayer
| Logger_reset
| Logger_save
| Logger_clearCache.

(** The constructor's [config]: the layer reads [consoleLevel] (absent when
    [None]) and hands the whole object to the Logger. *)
Record Config : Type := mkConfig {
  config_consoleLevel : option Z;
  config_object : JsVal
}.

(** What the layer does to its surroundings, in the order it does it: a call
    of a console function with the printed string, a call of a method of the
    Logger behind a reference with the argument list, and [new Logger(config)]
    with the reference of the object it creates. *)
Inductive Effect : Type :=
| ConsoleCall (f : ConsoleFunction) (text : string)
| LoggerCall (logger : LoggerRef) (method : LoggerMethod) (args : list JsVal)
| LoggerNew (logger : LoggerRef) (config : Config).

(** What a statement can throw: the [TypeError] of a property read on
    [undefined], or whatever a Logger method throws. *)
Inductive Exception : Type :=
| TypeError
| Thrown (v : JsVal).

(** The functions the layer imports or receives and that are not part of the
    sources at hand: [arrayToString] of [logUtils.js], and the Logger, of which
    the model only needs to know whether a call returns or throws.  The Logger
    answers from the effects so far and the call being made: [None] when the
    call returns, [Some v] when it throws [v].  A Logger call is taken to
    leave the fields of the layer and [global.Box] alone. *)
Class Host : Type := {
  arrayToString : list JsVal -> string;
  logger_throws : list Effect -> Effect -> option JsVal
}.

(** The fields of a [LogLayer] instance; [loggerRef] is [None] while it is
    [undefined] or [null]. *)
Record LogLayer : Type := mkLogLayer {
  consoleLevel : Z;
  loggerRef : option LoggerRef
}.

(** [global.Box], when it exists: its [Logger] property. *)
Record BoxNamespace : Type := mkBox {
  Logger : option LoggerRef
}.

Record World : Type := mkWorld {
  this : LogLayer;
  global_Box : option BoxNamespace;
  next_ref : LoggerRef;
  effects : list Effect
}.

(** *** Computations: state passing with exceptions *)

Inductive Completion (A : Type) : Type :=
| Normal (a : A)
| Throw (e : Exception).
Arguments Normal {A} _.
Arguments Throw {A} _.

Definition JS (A : Type) : Type := World -> Completion A * World.

Definition ret {A : Type} (a : A) : JS A := fun w => (Normal a, w).

Definition bind {A B : Type} (m : JS A) (k : A -> JS B) : JS B :=
  fun w =>
    match m w with
    | (Normal a, w') => k a w'
    | (Throw e, w') => (Throw e, w')
    end.

Definition throw {A : Type} (e : Exception) : JS A := fun w => (Throw e, w).

Declare Scope js_scope.
Delimit Scope js_scope with js.
Notation "x <- m ;; k" := (bind m (fun x => k))
  (at level 61, m at next level, right associativity) : js_scope.
Notation "m ;; k" := (bind m (fun _ => k))
  (at level 61, right associativity) : js_scope.
Open Scope js_scope.

Definition set_this (l : LogLayer) : JS unit :=
  fun w => (Normal tt,
            {| this := l; global_Box := global_Box w;
               next_ref := next_ref w; effects := effects w |}).

Definition set_global_Box (b : option BoxNamespace) : JS unit :=
  fun w => (Normal tt,
            {| this := this w; global_Box := b;
               next_ref := next_ref w; effects := effects w |}).

Definition get_this : JS LogLayer := fun w => (Normal (this w), w).

Definition get_global_Box : JS (option BoxNamespace) :=
  fun w => (Normal (global_Box w), w).

(** Record an effect. *)
Definition perform (e : Effect) : JS unit :=
  fun w => (Normal tt,
            {| this := this w; global_Box := global_Box w;
               next_ref := next_ref w; effects := push (effects w) e |}).

Section LogLayerMethods.
Context {K : LogConstants} {host : Host}.

(** A call that the Logger decides: the call is made, then it returns or
    throws. *)
Definition external (e : Effect) : JS unit :=
  fun w =>
    match logger_throws (effects w) e with
    | None => perform e w
    | Some v => (Throw (Thrown v), snd (perform e w))
    end.

(** [this.loggerRef.method(...args)]. *)
Definition loggerRef_call (method : LoggerMethod) (args : list JsVal) : JS unit :=
  self <- get_this ;;
  match loggerRef self with
  | Some logger => external (LoggerCall logger method args)
  | None => throw TypeError
  end.

(** [new Logger(config)]: a fresh object. *)
Definition new_Logger (config : Config) : JS LoggerRef :=
  fun w =>
    let logger := next_ref w in
    let w' := {| this := this w; global_Box := global_Box w;
                 next_ref := S logger; effects := effects w |} in
    match external (LoggerNew logger config) w' with
    | (Normal _, w'') => (Normal logger, w'')
    | (Throw e, w'') => (Throw e, w'')
    end.

Definition DEFAULT_CONSOLE_LEVEL : Z := CONSOLE_LEVELS_silent.

Definition setConsoleLevel (level : Z) : JS unit :=
  self <- get_this ;;
  set_this {| consoleLevel := level; loggerRef := loggerRef self |}.

(** The [switch] of [getConsoleFunction]: the cases are tried in source order
    with [===]. *)
Definition getConsoleFunction (type : string) : ConsoleFunction :=
  if String.eqb type LOG_TYPES_warning then console_warn
  else if String.eqb type LOG_TYPES_error then console_error
  else if String.eqb type LOG_TYPES_uncaught_error then console_error
  else if String.eqb type LOG_TYPES_info then console_log
  else console_log.

(** [canPrintLog]: the same [switch] selects [typeValue], and the result is
    [this.consoleLevel <= typeValue]. *)
Definition canPrintLog (self : LogLayer) (type : string) : bool :=
  let typeValue :=
    if String.eqb type LOG_TYPES_warning then CONSOLE_LEVELS_warning
    else if String.eqb type LOG_TYPES_error then CONSOLE_LEVELS_error
    else if String.eqb type LOG_TYPES_uncaught_error then CONSOLE_LEVELS_error
    else if String.eqb type LOG_TYPES_info then CONSOLE_LEVELS_info
    else CONSOLE_LEVELS_info in
  (consoleLevel self <=? typeValue)%Z.

(** [boxLoggerExists]:
    [this.loggerRef = this.loggerRef || (global.Box ? global.Box.Logger : null)],
    then [!!this.loggerRef]. *)
Definition boxLoggerExists : JS bool :=
  self <- get_this ;;
  box <- get_global_Box ;;
  let ref :=
    match loggerRef self with
    | Some logger => Some logger
    | None => match box with
              | Some b => Logger b
              | None => None
              end
    end in
  set_this {| consoleLevel := consoleLevel self; loggerRef := ref |} ;;
  ret (match ref with Some _ => true | None => false end).

(** [printLog]: the template literal is [[type] message]. *)
Definition printLog (type : string) (data : list JsVal) : JS unit :=
  self <- get_this ;;
  let logFunction :=
    if canPrintLog self type then Some (getConsoleFunction type) else None in
  match logFunction with
  | Some f =>
      let message := arrayToString data in
      perform (ConsoleCall f ("[" ++ type ++ "] " ++ message))
  | None => ret tt
  end.

Definition info (args : list JsVal) : JS unit :=
  printLog LOG_TYPES_info args ;;
  found <- boxLoggerExists ;;
  if negb found then ret tt
  else loggerRef_call Logger_info args.

Definition warn (args : list JsVal) : JS unit :=
  printLog LOG_TYPES_warning args ;;
  found <- boxLoggerExists ;;
  if negb found then ret tt
  else loggerRef_call Logger_warn args.

Definition error (args : list JsVal) : JS unit :=
  printLog LOG_TYPES_error args ;;
  found <- boxLoggerExists ;;
  if negb found then ret tt
  else loggerRef_call Logger_error args.

Definition metric (eventName value : JsVal) : JS unit :=
  printLog LOG_TYPES_metric [eventName; value] ;;
  found <- boxLoggerExists ;;
  if negb found then ret tt
  else loggerRef_call Logger_metric [eventName; value].

Definition setFile (file : JsVal) : JS unit :=
  found <- boxLoggerExists ;;
  if negb found then ret tt
  else loggerRef_call Logger_setFile [file].

Definition setContentType (type : JsVal) : JS unit :=
  found <- boxLoggerExists ;;
  if negb found then ret tt
  else loggerRef_call Logger_setContentType [type].

Definition setupNetworkLayer (config : JsVal) : JS unit :=
  found <- boxLoggerExists ;;
  if negb found then ret tt
  else loggerRef_call Logger_setupNetworkLayer [config].

Definition reset : JS unit :=
  found <- boxLoggerExists ;;
  if negb found then ret tt
  else loggerRef_call Logger_reset [].

(** The argument of [this.loggerRef.save]: [[LOG_TYPES.error, LOG_TYPES.metric]]. *)
Definition saved_kinds : JsVal :=
  JArr [JStr LOG_TYPES_error; JStr LOG_TYPES_metric].

Definition save : JS unit :=
  found <- boxLoggerExists ;;
  if negb found then ret tt
  else
    loggerRef_call Logger_save [saved_kinds] ;;
    loggerRef_call Logger_clearCache [].

(** [setupGlobalLogger].  In [global.Box = global.Box || global.Box.Logger]
    the right operand is only read when [global.Box] is [undefined], and that
    read throws a [TypeError]. *)
Definition setupGlobalLogger (config : Config) : JS unit :=
  found <- boxLoggerExists ;;
  if found then ret tt
  else
    box <- get_global_Box ;;
    match box with
    | None => throw TypeError
    | Some b =>
        set_global_Box (Some b) ;;
        logger <- new_Logger config ;;
        set_global_Box (Some {| Logger := Some logger |}) ;;
        self <- get_this ;;
        set_this {| consoleLevel := consoleLevel self; loggerRef := Some logger |}
    end.

(** The constructor: the fields start at their declared defaults; a
    [consoleLevel] is taken from [config] when it is truthy, that is present
    and not zero. *)
Definition constructor (config : Config) : JS unit :=
  set_this {| consoleLevel := DEFAULT_CONSOLE_LEVEL; loggerRef := None |} ;;
  match config_consoleLevel config with
  | Some level => if (level =? 0)%Z then ret tt else setConsoleLevel level
  | None => ret tt
  end ;;
  setupGlobalLogger config.

(** *** Vocabulary for the statements about the log layer *)

(** The public calls that log or pass through to the Logger. *)
Inductive MethodCall : Type :=
| call_info (args : list JsVal)
| call_warn (args : list JsVal)
| call_error (args : list JsVal)
| call_metric (eventName value : JsVal)
| call_setFile (file : JsVal)
| call_setContentType (type : JsVal)
| call_setupNetworkLayer (config : JsVal)
| call_reset
| call_save.

Definition invoke (c : MethodCall) : JS unit :=
  match c with
  | call_info args => info args
  | call_warn args => warn args
  | call_error args => error args
  | call_metric eventName value => metric eventName value
  | call_setFile file => setFile file
  | call_setContentType type => setContentType type
  | call_setupNetworkLayer config => setupNetworkLayer config
  | call_reset => reset
  | call_save => save
  end.

(** What a call prints: the log type and the data of the logging calls,
    nothing for the pass-through calls. *)
Definition printed (c : MethodCall) : option (string * list JsVal) :=
  match c with
  | call_info args => Some (LOG_TYPES_info, args)
  | call_warn args => Some (LOG_TYPES_warning, args)
  | call_error args => Some (LOG_TYPES_error, args)
  | call_metric eventName value => Some (LOG_TYPES_metric, [eventName; value])
  | _ => None
  end.

(** The console output expected of a call under the layer's threshold: one
    line on the console function of the type when the type may print. *)
Definition console_output (self : LogLayer) (c : MethodCall) : list Effect :=
  match printed c with
  | Some (type, data) =>
      if canPrintLog self type
      then [ConsoleCall (getConsoleFunction type)
                        ("[" ++ type ++ "] " ++ arrayToString data)]
      else []
  | None => []
  end.

(** No Logger can be found: the cached reference is empty and so is
    [global.Box.Logger]. *)
Definition logger_absent (w : World) : Prop :=
  loggerRef (this w) = None /\
  (global_Box w = None \/ global_Box w = Some {| Logger := None |}).

(** A Logger can be found: the one cached, or else the one of [global.Box]. *)
Definition found_logger (w : World) : option LoggerRef :=
  match loggerRef (this w) with
  | Some logger => Some logger
  | None => match global_Box w with
            | Some b => Logger b
            | None => None
            end
  end.

End LogLayerMethods.

(** *** Console levels and log types as enumerations *)

Inductive ConsoleLevel : Type :=
| level_info
| level_warning
| level_error
| level_silent.

(** The order info < warning < error < silent. *)
Definition severity (l : ConsoleLevel) : nat :=
  match l with
  | level_info => 0
  | level_warning => 1
  | level_error => 2
  | level_silent => 3
  end.

Inductive LogType : Type :=
| type_info
| type_warning
| type_error
| type_uncaught_error
| type_metric.

(** The severity of a log type: a warning is a warning, an error and an
    uncaught error are errors, everything else is information. *)
Definition type_severity (t : LogType) : ConsoleLevel :=
  match t with
  | type_warning => level_warning
  | type_error => level_error
  | type_uncaught_error => level_error
  | type_info => level_info
  | type_metric => level_info
  end.

Section Enumerations.
Context {K : LogConstants}.

Definition CONSOLE_LEVELS (l : ConsoleLevel) : Z :=
  match l with
  | level_info => CONSOLE_LEVELS_info
  | level_warning => CONSOLE_LEVELS_warning
  | level_error => CONSOLE_LEVELS_error
  | level_silent => CONSOLE_LEVELS_silent
  end.

Definition LOG_TYPES (t : LogType) : string :=
  match t with
  | type_info => LOG_TYPES_info
  | type_warning => LOG_TYPES_warning
  | type_error => LOG_TYPES_error
  | type_uncaught_error => LOG_TYPES_uncaught_error
  | type_metric => LOG_TYPES_metric
  end.

(** The console levels are numbered in the order of their severity. *)
Definition levels_ordered : Prop :=
  (CONSOLE_LEVELS_info < CONSOLE_LEVELS_warning)%Z /\
  (CONSOLE_LEVELS_warning < CONSOLE_LEVELS_error)%Z /\
  (CONSOLE_LEVELS_error < CONSOLE_LEVELS_silent)%Z.

(** The five log types are five different strings. *)
Definition types_distinct : Prop :=
  NoDup [LOG_TYPES_info; LOG_TYPES_warning; LOG_TYPES_error;
         LOG_TYPES_uncaught_error; LOG_TYPES_metric].

End Enumerations.

(** ** Constants and a host for evaluating the definitions *)

(** Modelled from the spec: the constants of [logConstants.js] and
    [metricsConstants.js], which the sources at hand import but do not contain.
    The spec names the log types, orders the console levels
    info < warning < error < silent and gives the event types ERROR, WARNING,
    INFO and METRIC; it leaves the control sentinel unnamed. *)
Definition sample_constants : LogConstants :=
  {| LOG_TYPES_info := "info";
     LOG_TYPES_warning := "warning";
     LOG_TYPES_error := "error";
     LOG_TYPES_uncaught_error := "uncaught_error";
     LOG_TYPES_metric := "metric";
     CONSOLE_LEVELS_info := 1;
     CONSOLE_LEVELS_warning := 2;
     CONSOLE_LEVELS_error := 3;
     CONSOLE_LEVELS_silent := 4;
     LOG_CODES_error := "ERROR";
     LOG_CODES_info := "INFO";
     LOG_CODES_warning := "WARNING";
     LOG_CODES_metric := "METRIC";
     METRIC_CONTROL := "CONTROL" |}.

(** Modelled from the spec: [arrayToString] of [logUtils.js], which formats
    the arguments into a single string; here the strings among them joined by
    a separator, other values printing as the empty string. *)
Fixpoint join_strings (sep : string) (data : list JsVal) : string :=
  match data with
  | [] => ""
  | [JStr s] => s
  | JStr s :: rest => s ++ sep ++ join_strings sep rest
  | [_] => ""
  | _ :: rest => sep ++ join_strings sep rest
  end.

(** A host whose Logger never throws. *)
Definition quiet_host : Host :=
  {| arrayToString := join_strings ", ";
     logger_throws := fun _ _ => None |}.

(** A host whose Logger throws from [save] and from nothing else. *)
Definition failing_save_host : Host :=
  {| arrayToString := join_strings ", ";
     logger_throws := fun _ e =>
       match e with
       | LoggerCall _ Logger_save _ => Some (JStr "save failed")
       | _ => None
       end |}.

(** A world without Logger, the layer printing from warnings up. *)
Definition world_without_logger : World :=
  {| this := {| consoleLevel := 2; loggerRef := None |};
     global_Box := None;
     next_ref := 0;
     effects := [] |}.

(** A world whose [global.Box.Logger] is the Logger 0, not yet cached. *)
Definition world_with_logger : World :=
  {| this := {| consoleLevel := 4; loggerRef := None |};
     global_Box := Some {| Logger := Some 0 |};
     next_ref := 1;
     effects := [] |}.

(** ** Vocabulary for further statements *)

(** The logs that a generic batch was made of: each entry gives back a
    timestamp and a message. *)
Definition logs_of_batch (batch : Batch) : list (LogRecord JsVal) :=
  map (fun e => mkLog (ev_timestamp e) (ev_value e)) (events batch).

(** The world with [global.Box] replaced. *)
Definition with_global_Box (b : option BoxNamespace) (w : World) : World :=
  {| this := this w; global_Box := b; next_ref := next_ref w; effects := effects w |}.

(** The world after the layer cached a Logger. *)
Definition cache (logger : LoggerRef) (w : World) : World :=
  {| this := {| consoleLevel := consoleLevel (this w); loggerRef := Some logger |};
     global_Box := global_Box w;
     next_ref := next_ref w;
     effects := effects w |}.

(** The world after some more effects. *)
Definition add_effects (es : list Effect) (w : World) : World :=
  {| this := this w; global_Box := global_Box w; next_ref := next_ref w;
     effects := effects w ++ es |}.

Definition is_logger_call (e : Effect) : bool :=
  match e with
  | LoggerCall _ _ _ => true
  | _ => false
  end.

Section ForwardedCalls.
Context {K : LogConstants}.

(** The Logger method that a call of the layer reaches first, and the
    arguments it passes. *)
Definition forwarded_method (c : MethodCall) : LoggerMethod :=
  match c with
  | call_info _ => Logger_info
  | call_warn _ => Logger_warn
  | call_error _ => Logger_error
  | call_metric _ _ => Logger_metric
  | call_setFile _ => Logger_setFile
  | call_setContentType _ => Logger_setContentType
  | call_setupNetworkLayer _ => Logger_setupNetworkLayer
  | call_reset => Logger_reset
  | call_save => Logger_save
  end.

Definition forwarded_args (c : MethodCall) : list JsVal :=
  match c with
  | call_info args => args
  | call_warn args => args
  | call_error args => args
  | call_metric eventName value => [eventName; value]
  | call_setFile file => [file]
  | call_setContentType type => [type]
  | call_setupNetworkLayer config => [config]
  | call_reset => []
  | call_save => [saved_kinds]
  end.

(** The console level a constructed layer starts with: the one of [config]
    when it is present and not zero, silent otherwise. *)
Definition configured_level (config : Config) : Z :=
  match config_consoleLevel config with
  | Some level => if (level =? 0)%Z then CONSOLE_LEVELS_silent else level
  | None => CONSOLE_LEVELS_silent
  end.

End ForwardedCalls.

(** A host whose Logger cannot be constructed. *)
Definition failing_new_host : Host :=
  {| arrayToString := join_strings ", ";
     logger_throws := fun _ e =>
       match e with
       | LoggerNew _ _ => Some (JStr "no logger")
       | _ => None
       end |}.

(** A world whose [global.Box] exists without a Logger. *)
Definition world_with_empty_Box : World :=
  {| this := {| consoleLevel := 0; loggerRef := None |};
     global_Box := Some {| Logger := None |};
     next_ref := 5;
     effects := [] |}.

(* ================================================================== *)
(** * Theorems *)
(* ================================================================== *)

(** ** Constant objects *)

Lemma nodupb_sound (l : list string) : nodupb l = true -> NoDup l.
Proof.
  induction l as [|x rest IH]; simpl; intros H.
  - constructor.
  - apply andb_prop in H as [Hx Hrest].
    constructor; [|now apply IH].
    intros Hin.
    apply negb_true_iff in Hx.
    assert (existsb (String.eqb x) rest = true) as Hex.
    { apply existsb_exists. exists x. split; [exact Hin | apply String.eqb_refl]. }
    congruence.
Qed.

(** Reading two properties of an object whose values are pairwise distinct
    yields the same value only when the property names agree. *)
Lemma get_injective (o : ConstObject) :
  NoDup (values o) ->
  forall k1 k2 v, get o k1 = Some v -> get o k2 = Some v -> k1 = k2.
Proof.
  assert (Hin : forall o' k v, get o' k = Some v -> In v (values o')).
  { induction o' as [|[k' v'] rest IH]; simpl; intros k v H; [discriminate|].
    destruct (String.eqb k k'); [left; congruence | right; eauto]. }
  induction o as [|[k v0] rest IH]; simpl; intros Hnd k1 k2 v H1 H2; [discriminate|].
  inversion Hnd as [|? ? Hnotin Hnd']; subst.
  destruct (String.eqb k1 k) eqn:E1, (String.eqb k2 k) eqn:E2.
  - apply String.eqb_eq in E1, E2. congruence.
  - exfalso. apply Hnotin. injection H1 as <-. eapply Hin; eauto.
  - exfalso. apply Hnotin. injection H2 as <-. eapply Hin; eauto.
  - eapply IH; eauto.
Qed.

(** C1: the values of [VIEWER_EVENT] are exactly the ten strings download,
    reload, load, progressstart, progressend, notificationshow,
    notificationhide, mediaendautoplay, error and viewerevent: a string is a
    value of the object if and only if it is one of these, and the object has
    ten properties. *)
Theorem VIEWER_EVENT_values :
  (forall s : string,
      In s (values VIEWER_EVENT) <->
      (s = "download" \/ s = "reload" \/ s = "load" \/ s = "progressstart" \/
       s = "progressend" \/ s = "notificationshow" \/ s = "notificationhide" \/
       s = "mediaendautoplay" \/ s = "error" \/ s = "viewerevent")) /\
  length (values VIEWER_EVENT) = 10%nat.
Proof.
  split; [|reflexivity].
  intros s. unfold values, VIEWER_EVENT. simpl.
  split; intros H.
  - repeat (destruct H as [H|H]; [symmetry in H; tauto|]). contradiction.
  - repeat (destruct H as [H|H]; [symmetry in H; tauto|]). symmetry in H. tauto.
Qed.

(** C2: the values of [ERROR_CODE] are exactly the five strings
    error_annotations_load, error_invalid_file_for_cache,
    error_prefetch_file_id, error_rate_limit and error_retries_exceeded: a
    string is a value of the object if and only if it is one of these, and the
    object has five properties. *)
Theorem ERROR_CODE_values :
  (forall s : string,
      In s (values ERROR_CODE) <->
      (s = "error_annotations_load" \/ s = "error_invalid_file_for_cache" \/
       s = "error_prefetch_file_id" \/ s = "error_rate_limit" \/
       s = "error_retries_exceeded")) /\
  length (values ERROR_CODE) = 5%nat.
Proof.
  split; [|reflexivity].
  intros s. unfold values, ERROR_CODE. simpl.
  split; intros H.
  - repeat (destruct H as [H|H]; [symmetry in H; tauto|]). contradiction.
  - repeat (destruct H as [H|H]; [symmetry in H; tauto|]). symmetry in H. tauto.
Qed.

(** C9: the values of [VIEWER_EVENT] are pairwise distinct and the values of
    [ERROR_CODE] are pairwise distinct, so in either object two property
    names that read the same value are the same name. *)
Theorem constants_values_distinct :
  NoDup (values VIEWER_EVENT) /\
  NoDup (values ERROR_CODE) /\
  (forall k1 k2 v,
      get VIEWER_EVENT k1 = Some v -> get VIEWER_EVENT k2 = Some v -> k1 = k2) /\
  (forall k1 k2 v,
      get ERROR_CODE k1 = Some v -> get ERROR_CODE k2 = Some v -> k1 = k2).
Proof.
  assert (Hv : NoDup (values VIEWER_EVENT)) by (apply nodupb_sound; reflexivity).
  assert (He : NoDup (values ERROR_CODE)) by (apply nodupb_sound; reflexivity).
  repeat split; trivial.
  - exact (get_injective VIEWER_EVENT Hv).
  - exact (get_injective ERROR_CODE He).
Qed.

(** C10: every value of [ERROR_CODE] is a non-empty string that starts with
    error_, and every value of [VIEWER_EVENT] is a non-empty string made of
    lowercase letters only (hence unchanged by lowercasing). *)
Theorem constants_values_shape :
  (forall s, In s (values ERROR_CODE) ->
             s <> "" /\ String.prefix "error_" s = true) /\
  (forall s, In s (values VIEWER_EVENT) ->
             s <> "" /\ string_forall is_lower_letter s = true /\ toLowerCase s = s).
Proof.
  split; intros s H; unfold values in H; simpl in H;
    repeat (destruct H as [H|H]; [subst s; repeat split; discriminate || reflexivity|]);
    contradiction.
Qed.

(** ** Log transformers *)

Section TransformerFacts.
Context {K : LogConstants}.

(** The [forEach] of [transformGeneric], started on any batch, keeps the event
    type and appends one entry per log, in order. *)
Lemma transformGeneric_fold (event : string) (logs : list (LogRecord JsVal)) (batch : Batch) :
  fold_left
    (fun batch log =>
       let timestamp := timestamp log in
       let message := message log in
       events_push batch
         {| ev_timestamp := timestamp; ev_value := message; ev_code := event |})
    logs batch
  = {| event_type := event_type batch;
       events := events batch ++
                 map (fun log => {| ev_timestamp := timestamp log;
                                    ev_code := event;
                                    ev_value := message log |}) logs |}.
Proof.
  revert batch.
  induction logs as [|log logs IH]; intros batch; simpl.
  - rewrite app_nil_r. now destruct batch.
  - rewrite IH. unfold events_push, push. simpl.
    now rewrite <- app_assoc.
Qed.

Lemma transformGeneric_map (event : string) (logs : list (LogRecord JsVal)) :
  transformGeneric event logs
  = {| event_type := event;
       events := map (fun log => {| ev_timestamp := timestamp log;
                                    ev_code := event;
                                    ev_value := message log |}) logs |}.
Proof.
  unfold transformGeneric. now rewrite transformGeneric_fold.
Qed.

(** One step of the [forEach] of [transformMetrics] in terms of the
    vocabulary. *)
Lemma transformMetrics_step_eq
    (batch : Batch) (controlEvents : list JsVal) (log : LogRecord MetricMessage) :
  transformMetrics_step (batch, controlEvents) log
  = if is_control log
    then (batch, push controlEvents (control_entry log))
    else (events_push batch (metric_event log), controlEvents).
Proof. reflexivity. Qed.

(** The [forEach] of [transformMetrics], started on any batch and any list of
    control events: measured metrics go to the batch, control records to the
    side list, each in input order. *)
Lemma transformMetrics_fold
    (logs : list (LogRecord MetricMessage)) (batch : Batch) (controlEvents : list JsVal) :
  fold_left transformMetrics_step logs (batch, controlEvents)
  = ({| event_type := event_type batch;
        events := events batch ++ map metric_event (filter is_measure logs) |},
     (controlEvents ++ map control_entry (filter is_control logs))%list).
Proof.
  revert batch controlEvents.
  induction logs as [|log logs IH]; intros batch controlEvents.
  - simpl. rewrite !app_nil_r. now destruct batch.
  - cbn [fold_left filter]. rewrite transformMetrics_step_eq.
    unfold is_measure at 1.
    destruct (is_control log) eqn:E; rewrite IH; cbn [negb map].
    + unfold push. now rewrite <- app_assoc.
    + unfold events_push, push. cbn [event_type events].
      now rewrite <- app_assoc.
Qed.

(** No measured metric carries the control sentinel as its code. *)
Lemma measures_not_control (logs : list (LogRecord MetricMessage)) :
  filter (fun e => String.eqb (ev_code e) METRIC_CONTROL)
         (map metric_event (filter is_measure logs)) = [].
Proof.
  induction logs as [|log logs IH]; [reflexivity|].
  cbn [filter]. unfold is_measure at 1.
  destruct (is_control log) eqn:E; cbn [negb map filter]; [exact IH|].
  unfold is_control in E. cbn [metric_event ev_code]. rewrite E. exact IH.
Qed.

Lemma control_present (logs : list (LogRecord MetricMessage)) :
  (exists log, In log logs /\ is_control log = true) ->
  filter is_control logs <> [].
Proof.
  intros (log & Hin & Hc) Hnil.
  assert (In log (filter is_control logs)) as Hf by (apply filter_In; auto).
  rewrite Hnil in Hf. contradiction.
Qed.

(** C4: for every event code [c] (the metric code or any other) and every
    list of records [rs], [transformGeneric c rs] is a batch whose event type
    is [c] and whose events are as many as the records and in their order: the
    i-th event has the timestamp of the i-th record, code [c] and the record's
    message as value. *)
Theorem transformGeneric_batch (c : string) (rs : list (LogRecord JsVal)) :
  event_type (transformGeneric c rs) = c /\
  length (events (transformGeneric c rs)) = length rs /\
  (forall i r,
      nth_error rs i = Some r ->
      nth_error (events (transformGeneric c rs)) i
      = Some {| ev_timestamp := timestamp r; ev_code := c; ev_value := message r |}).
Proof.
  rewrite transformGeneric_map. simpl.
  split; [reflexivity|]. split; [apply length_map|].
  intros i r Hr. rewrite nth_error_map, Hr. reflexivity.
Qed.

(** C5 (amended): for every list of metric records with at least one control
    record, [transformMetrics] gives a metric batch whose events are the
    measured metrics in input order, each as timestamp, metric code and metric
    value, followed by one trailing event timestamped with the time of the
    call, whose code is the control sentinel and whose value is the ordered
    list of control entries, one per control record, made of the record's
    timestamp and of its metric value as code.  The trailing event is the only
    event of the batch with the sentinel as code. *)
Theorem transformMetrics_with_control
    (now : string) (logs : list (LogRecord MetricMessage)) :
  (exists log, In log logs /\ is_control log = true) ->
  event_type (transformMetrics now logs) = LOG_CODES_metric /\
  events (transformMetrics now logs) = metric_events_with now logs (control_entries logs) /\
  length (filter (fun e => String.eqb (ev_code e) METRIC_CONTROL)
                 (events (transformMetrics now logs))) = 1%nat.
Proof.
  intros Hc. apply control_present in Hc.
  unfold transformMetrics. rewrite transformMetrics_fold. simpl.
  destruct (filter is_control logs) as [|log0 ctl] eqn:E; [congruence|].
  simpl.
  split; [reflexivity|].
  unfold metric_events_with, control_entries, push. rewrite E.
  split; [reflexivity|].
  rewrite filter_app, measures_not_control. simpl.
  now rewrite String.eqb_refl.
Qed.

(** C6: on an empty list of records, [transformGeneric c] is the batch of
    event type [c] with no events, and [transformMetrics] is the batch of the
    metric event type with no events, hence without trailing control event. *)
Theorem transform_empty :
  (forall c : string,
      transformGeneric c [] = {| event_type := c; events := [] |}) /\
  (forall now : string,
      transformMetrics now [] = {| event_type := LOG_CODES_metric; events := [] |}).
Proof.
  split; intros; reflexivity.
Qed.

(** Without control record there is no trailing event at all. *)
Lemma transformMetrics_without_control
    (now : string) (logs : list (LogRecord MetricMessage)) :
  filter is_control logs = [] ->
  transformMetrics now logs
  = {| event_type := LOG_CODES_metric;
       events := map metric_event (filter is_measure logs) |}.
Proof.
  intros E. unfold transformMetrics.
  rewrite transformMetrics_fold, E. reflexivity.
Qed.

(** The exported transformers are [transformGeneric] at their log code. *)
Lemma transformErrors_map (logs : list (LogRecord JsVal)) :
  transformErrors logs
  = {| event_type := LOG_CODES_error;
       events := map (fun log => {| ev_timestamp := timestamp log;
                                    ev_code := LOG_CODES_error;
                                    ev_value := message log |}) logs |}.
Proof. apply transformGeneric_map. Qed.

Lemma transformWarnings_map (logs : list (LogRecord JsVal)) :
  transformWarnings logs
  = {| event_type := LOG_CODES_warning;
       events := map (fun log => {| ev_timestamp := timestamp log;
                                    ev_code := LOG_CODES_warning;
                                    ev_value := message log |}) logs |}.
Proof. apply transformGeneric_map. Qed.

Lemma transformInfo_map (logs : list (LogRecord JsVal)) :
  transformInfo logs
  = {| event_type := LOG_CODES_info;
       events := map (fun log => {| ev_timestamp := timestamp log;
                                    ev_code := LOG_CODES_info;
                                    ev_value := message log |}) logs |}.
Proof. apply transformGeneric_map. Qed.

End TransformerFacts.

(** The two examples of the transformers on the sample constants. *)
Example transformErrors_boom :
  @transformErrors sample_constants [mkLog "t1" (JStr "boom")]
  = {| event_type := "ERROR";
       events := [ {| ev_timestamp := "t1"; ev_code := "ERROR"; ev_value := JStr "boom" |} ] |}.
Proof. reflexivity. Qed.

Example transformMetrics_m1 :
  @transformMetrics sample_constants "now"
    [ mkLog "t1" (mkMetric "m1" (JNum 5));
      mkLog "t2" (mkMetric "CONTROL" (JStr "m1")) ]
  = {| event_type := "METRIC";
       events :=
         [ {| ev_timestamp := "t1"; ev_code := "m1"; ev_value := JNum 5 |};
           {| ev_timestamp := "now"; ev_code := "CONTROL";
              ev_value := JArr [JObj [("timestamp", JStr "t2"); ("code", JStr "m1")]] |} ] |}.
Proof. reflexivity. Qed.

(** C5 as stated fails: on one measured metric followed by one control record
    whose metric value is m1, the value of the trailing event is not the bare
    list of the control records' metric values (the one-element list of m1):
    it is a list of one object that holds the record's timestamp and m1 as
    code. *)
Lemma transformMetrics_value_is_not_bare_codes :
  let logs := [ mkLog "t1" (mkMetric "m1" (JNum 5));
                mkLog "t2" (mkMetric "CONTROL" (JStr "m1")) ] in
  (exists log, In log logs /\ @is_control sample_constants log = true) /\
  @bare_codes sample_constants logs = JArr [JStr "m1"] /\
  events (@transformMetrics sample_constants "now" logs)
  <> @metric_events_with sample_constants "now" logs (@bare_codes sample_constants logs).
Proof.
  simpl. split; [|split].
  - eexists. split; [right; left; reflexivity | reflexivity].
  - reflexivity.
  - vm_compute. intros E. discriminate E.
Qed.

Lemma transformMetrics_with_control_witness :
  events (@transformMetrics sample_constants "now"
            [ mkLog "t1" (mkMetric "m1" (JNum 5));
              mkLog "t2" (mkMetric "CONTROL" (JStr "m1")) ])
  = [ {| ev_timestamp := "t1"; ev_code := "m1"; ev_value := JNum 5 |};
      {| ev_timestamp := "now"; ev_code := "CONTROL";
         ev_value := JArr [JObj [("timestamp", JStr "t2"); ("code", JStr "m1")]] |} ].
Proof.
  refine (proj1 (proj2 (@transformMetrics_with_control sample_constants "now"
            [ mkLog "t1" (mkMetric "m1" (JNum 5));
              mkLog "t2" (mkMetric "CONTROL" (JStr "m1")) ] _))).
  exists (mkLog "t2" (mkMetric "CONTROL" (JStr "m1"))).
  split; [right; left; reflexivity | reflexivity].
Defined.

(** ** The log layer *)

Section LogLayerFacts.
Context {K : LogConstants} {host : Host}.

(** *** Printing *)

(** Distinct log types are told apart by the [===] of the switches. *)
Lemma types_distinct_eqb :
  types_distinct ->
  String.eqb LOG_TYPES_info LOG_TYPES_warning = false /\
  String.eqb LOG_TYPES_info LOG_TYPES_error = false /\
  String.eqb LOG_TYPES_info LOG_TYPES_uncaught_error = false /\
  String.eqb LOG_TYPES_error LOG_TYPES_warning = false /\
  String.eqb LOG_TYPES_uncaught_error LOG_TYPES_warning = false /\
  String.eqb LOG_TYPES_uncaught_error LOG_TYPES_error = false /\
  String.eqb LOG_TYPES_metric LOG_TYPES_warning = false /\
  String.eqb LOG_TYPES_metric LOG_TYPES_error = false /\
  String.eqb LOG_TYPES_metric LOG_TYPES_uncaught_error = false /\
  String.eqb LOG_TYPES_metric LOG_TYPES_info = false.
Proof.
  unfold types_distinct. intros Hnd.
  repeat match goal with
         | Hn : NoDup (_ :: _) |- _ =>
             let Hnotin := fresh "Hnotin" in
             apply NoDup_cons_iff in Hn as [Hnotin Hn]; simpl in Hnotin
         end.
  repeat split; apply String.eqb_neq; intros E; rewrite E in *; tauto.
Qed.

(** Whatever the log type, the value that [canPrintLog] compares with the
    threshold is one of the levels info, warning and error. *)
Lemma canPrintLog_typeValue (self : LogLayer) (type : string) :
  canPrintLog self type = (consoleLevel self <=? CONSOLE_LEVELS_info)%Z \/
  canPrintLog self type = (consoleLevel self <=? CONSOLE_LEVELS_warning)%Z \/
  canPrintLog self type = (consoleLevel self <=? CONSOLE_LEVELS_error)%Z.
Proof.
  unfold canPrintLog.
  destruct (String.eqb type LOG_TYPES_warning); [tauto|].
  destruct (String.eqb type LOG_TYPES_error); [tauto|].
  destruct (String.eqb type LOG_TYPES_uncaught_error); [tauto|].
  destruct (String.eqb type LOG_TYPES_info); tauto.
Qed.

(** C3: with the console levels numbered in the order
    info < warning < error < silent (and the log types being different
    strings), for every log type [L] and every threshold [T] held by the layer,
    [canPrintLog] answers true exactly when the severity of [L] is at least the
    severity of [T]; under the threshold silent it answers false for every
    type. *)
Theorem canPrintLog_iff_severity :
  levels_ordered ->
  types_distinct ->
  forall (T : ConsoleLevel) (self : LogLayer),
    consoleLevel self = CONSOLE_LEVELS T ->
    (forall L : LogType,
        canPrintLog self (LOG_TYPES L) = true <->
        severity (type_severity L) >= severity T) /\
    (T = level_silent -> forall type : string, canPrintLog self type = false).
Proof.
  intros (Hiw & Hwe & Hes) Hd T self HT.
  apply types_distinct_eqb in Hd.
  destruct Hd as (E1 & E2 & E3 & E4 & E5 & E6 & E7 & E8 & E9 & E10).
  split.
  - intros L. unfold canPrintLog. rewrite HT.
    destruct L; cbn [LOG_TYPES type_severity];
      rewrite ?String.eqb_refl, ?E1, ?E2, ?E3, ?E4, ?E5, ?E6, ?E7, ?E8, ?E9, ?E10;
      rewrite Z.leb_le;
      destruct T; cbn [CONSOLE_LEVELS severity]; lia.
  - intros -> type. cbn [CONSOLE_LEVELS] in HT.
    destruct (canPrintLog_typeValue self type) as [E|[E|E]];
      rewrite E, HT; apply Z.leb_gt; lia.
Qed.

(** The console function of each log type: warnings print with
    [console.warn], errors and uncaught errors with [console.error], the other
    types with [console.log]. *)
Lemma getConsoleFunction_types :
  types_distinct ->
  getConsoleFunction LOG_TYPES_warning = console_warn /\
  getConsoleFunction LOG_TYPES_error = console_error /\
  getConsoleFunction LOG_TYPES_uncaught_error = console_error /\
  getConsoleFunction LOG_TYPES_info = console_log /\
  getConsoleFunction LOG_TYPES_metric = console_log.
Proof.
  intros Hd. apply types_distinct_eqb in Hd.
  destruct Hd as (E1 & E2 & E3 & E4 & E5 & E6 & E7 & E8 & E9 & E10).
  unfold getConsoleFunction.
  rewrite ?String.eqb_refl, ?E1, ?E2, ?E3, ?E4, ?E5, ?E6, ?E7, ?E8, ?E9, ?E10.
  repeat split; reflexivity.
Qed.

(** [setConsoleLevel] makes its argument the threshold that [canPrintLog]
    reads. *)
Lemma setConsoleLevel_run (level : Z) (w : World) :
  setConsoleLevel level w
  = (Normal tt,
     {| this := {| consoleLevel := level; loggerRef := loggerRef (this w) |};
        global_Box := global_Box w;
        next_ref := next_ref w;
        effects := effects w |}).
Proof. reflexivity. Qed.

(** *** Looking for the Logger *)

Lemma boxLoggerExists_run (w : World) :
  boxLoggerExists w
  = (Normal (match found_logger w with Some _ => true | None => false end),
     {| this := {| consoleLevel := consoleLevel (this w);
                   loggerRef := found_logger w |};
        global_Box := global_Box w;
        next_ref := next_ref w;
        effects := effects w |}).
Proof. reflexivity. Qed.

Lemma logger_absent_not_found (w : World) :
  logger_absent w -> found_logger w = None.
Proof.
  unfold logger_absent, found_logger.
  intros [-> [-> | ->]]; reflexivity.
Qed.

(** Without a Logger, [boxLoggerExists] answers false and leaves the world as
    it is. *)
Lemma boxLoggerExists_absent (w : World) :
  logger_absent w -> boxLoggerExists w = (Normal false, w).
Proof.
  intros Ha. rewrite boxLoggerExists_run, (logger_absent_not_found w Ha).
  destruct Ha as [Href _].
  destruct w as [[level ref] box next eff]. simpl in *. now subst.
Qed.

(** [printLog] never throws and only touches the effects. *)
Lemma printLog_run (type : string) (data : list JsVal) (w : World) :
  printLog type data w
  = (Normal tt,
     {| this := this w; global_Box := global_Box w; next_ref := next_ref w;
        effects := effects w ++
                   (if canPrintLog (this w) type
                    then [ConsoleCall (getConsoleFunction type)
                                      ("[" ++ type ++ "] " ++ arrayToString data)]
                    else []) |}).
Proof.
  unfold printLog, bind, get_this.
  destruct (canPrintLog (this w) type); simpl.
  - reflexivity.
  - rewrite app_nil_r. now destruct w.
Qed.

(** A pass-through guarded by [boxLoggerExists] does nothing without Logger. *)
Lemma guarded_absent (body : JS unit) (w : World) :
  logger_absent w ->
  (found <- boxLoggerExists ;; if negb found then ret tt else body) w = (Normal tt, w).
Proof.
  intros Ha. unfold bind. now rewrite (boxLoggerExists_absent w Ha).
Qed.

(** A logging call without Logger: the print, then nothing. *)
Lemma logging_absent (type : string) (data : list JsVal) (body : JS unit) (w : World) :
  logger_absent w ->
  (printLog type data ;;
   found <- boxLoggerExists ;; if negb found then ret tt else body) w
  = (Normal tt, snd (printLog type data w)).
Proof.
  intros Ha. unfold bind at 1. rewrite printLog_run. cbn [snd].
  apply guarded_absent. exact Ha.
Qed.

(** C8: while no Logger is present, each of [info], [warn], [error],
    [metric], [setFile], [setContentType], [setupNetworkLayer], [reset] and
    [save] completes normally, without exception; its only effect is the
    console line that the threshold permits (none for the pass-through
    methods), no Logger method is called, and the layer and [global.Box] are
    as before. *)
Theorem no_logger_no_exception (c : MethodCall) (w : World) :
  logger_absent w ->
  fst (invoke c w) = Normal tt /\
  effects (snd (invoke c w)) = (effects w ++ console_output (this w) c)%list /\
  (forall logger method args,
      ~ In (LoggerCall logger method args) (console_output (this w) c)) /\
  this (snd (invoke c w)) = this w /\
  global_Box (snd (invoke c w)) = global_Box w.
Proof.
  intros Ha.
  assert (Hout : forall logger method args,
             ~ In (LoggerCall logger method args) (console_output (this w) c)).
  { intros logger method args. unfold console_output.
    destruct (printed c) as [[type data]|]; [|tauto].
    destruct (canPrintLog (this w) type); simpl; [|tauto].
    intros [E|[]]. discriminate E. }
  destruct c; cbn [invoke];
    unfold info, warn, error, metric, setFile, setContentType,
           setupNetworkLayer, reset, save;
    first [ rewrite (logging_absent _ _ _ w Ha), printLog_run
          | rewrite (guarded_absent _ w Ha) ];
    cbn [fst snd this global_Box effects];
    (repeat split; trivial);
    unfold console_output; cbn [printed]; now rewrite ?app_nil_r.
Qed.

(** *** Saving *)

(** With a Logger at hand, [boxLoggerExists] answers true and caches it. *)
Lemma boxLoggerExists_found (w : World) (logger : LoggerRef) :
  found_logger w = Some logger ->
  boxLoggerExists w
  = (Normal true,
     {| this := {| consoleLevel := consoleLevel (this w); loggerRef := Some logger |};
        global_Box := global_Box w;
        next_ref := next_ref w;
        effects := effects w |}).
Proof.
  intros Hf. rewrite boxLoggerExists_run, Hf. reflexivity.
Qed.

(** A method call on the cached Logger is recorded, then returns or throws as
    the Logger decides. *)
Lemma loggerRef_call_run
    (method : LoggerMethod) (args : list JsVal) (w : World) (logger : LoggerRef) :
  loggerRef (this w) = Some logger ->
  loggerRef_call method args w
  = (match logger_throws (effects w) (LoggerCall logger method args) with
     | None => Normal tt
     | Some v => Throw (Thrown v)
     end,
     {| this := this w; global_Box := global_Box w; next_ref := next_ref w;
        effects := effects w ++ [LoggerCall logger method args] |}).
Proof.
  intros Hl. unfold loggerRef_call, bind, get_this. rewrite Hl.
  unfold external.
  destruct (logger_throws (effects w) (LoggerCall logger method args)); reflexivity.
Qed.

(** [save] with a Logger at hand, step by step. *)
Lemma save_run (w : World) (logger : LoggerRef) :
  found_logger w = Some logger ->
  let persist := LoggerCall logger Logger_save [saved_kinds] in
  let clear := LoggerCall logger Logger_clearCache [] in
  let self := {| consoleLevel := consoleLevel (this w); loggerRef := Some logger |} in
  save w
  = match logger_throws (effects w) persist with
    | Some v =>
        (Throw (Thrown v),
         {| this := self; global_Box := global_Box w; next_ref := next_ref w;
            effects := effects w ++ [persist] |})
    | None =>
        (match logger_throws (effects w ++ [persist])%list clear with
         | None => Normal tt
         | Some v => Throw (Thrown v)
         end,
         {| this := self; global_Box := global_Box w; next_ref := next_ref w;
            effects := (effects w ++ [persist]) ++ [clear] |})
    end.
Proof.
  intros Hf persist clear self.
  unfold save, bind at 1. rewrite (boxLoggerExists_found w logger Hf).
  cbn [negb]. unfold bind.
  rewrite loggerRef_call_run with (logger := logger) by reflexivity.
  cbn [this global_Box next_ref effects]. fold persist self.
  destruct (logger_throws (effects w) persist) as [v|]; [reflexivity|].
  rewrite loggerRef_call_run with (logger := logger) by reflexivity.
  reflexivity.
Qed.

(** C7: whenever a Logger is present, [save] first calls the Logger's [save]
    with exactly the two kinds error and metric; the call of [clearCache], if
    any, comes right after it and is the last effect.  [clearCache] is called
    when [save] returned and is not called when [save] threw, in which case
    the exception is passed on. *)
Theorem save_persists_before_clear (w : World) (logger : LoggerRef) :
  found_logger w = Some logger ->
  let persist :=
    LoggerCall logger Logger_save [JArr [JStr LOG_TYPES_error; JStr LOG_TYPES_metric]] in
  let clear := LoggerCall logger Logger_clearCache [] in
  exists rest : list Effect,
    effects (snd (save w)) = (effects w ++ persist :: rest)%list /\
    (rest = [] \/ rest = [clear]) /\
    (logger_throws (effects w) persist = None -> rest = [clear]) /\
    (forall v, logger_throws (effects w) persist = Some v ->
               rest = [] /\ fst (save w) = Throw (Thrown v)).
Proof.
  intros Hf persist clear.
  rewrite (save_run w logger Hf). unfold saved_kinds. fold persist clear.
  destruct (logger_throws (effects w) persist) as [v|] eqn:Ep.
  - exists []. cbn [snd fst effects].
    repeat split; try tauto; try congruence.
  - exists [clear]. cbn [snd fst effects]. rewrite <- app_assoc.
    repeat split; try tauto; try discriminate.
Qed.

(** *** Construction *)

(** When [global.Box] does not exist, the constructor throws a [TypeError]
    on reading [global.Box.Logger]. *)
Lemma constructor_without_Box (config : Config) (w : World) :
  global_Box w = None ->
  fst (constructor config w) = Throw TypeError.
Proof.
  intros Hb. destruct w as [self box next eff]. simpl in Hb. subst box.
  unfold constructor.
  destruct (config_consoleLevel config) as [level|]; [destruct (level =? 0)%Z|];
    reflexivity.
Qed.

(** A constructor that returns leaves a Logger in [loggerRef]. *)
Lemma constructor_sets_loggerRef (config : Config) (w : World) :
  fst (constructor config w) = Normal tt ->
  loggerRef (this (snd (constructor config w))) <> None.
Proof.
  destruct w as [self box next eff].
  unfold constructor.
  destruct (config_consoleLevel config) as [level|]; [destruct (level =? 0)%Z|];
    destruct box as [[[l|]]|]; cbn; try (intros _; discriminate); try discriminate;
    unfold bind, new_Logger, external; cbn;
    match goal with
    | |- context [logger_throws ?e ?c] => destruct (logger_throws e c)
    end; cbn; intros; discriminate.
Qed.

End LogLayerFacts.

(** ** The log layer on the sample constants *)

Example save_quiet :
  @save sample_constants quiet_host world_with_logger
  = (Normal tt,
     {| this := {| consoleLevel := 4; loggerRef := Some 0 |};
        global_Box := Some {| Logger := Some 0 |};
        next_ref := 1;
        effects := [ LoggerCall 0 Logger_save [JArr [JStr "error"; JStr "metric"]];
                     LoggerCall 0 Logger_clearCache [] ] |}).
Proof. reflexivity. Qed.

Example save_failing :
  @save sample_constants failing_save_host world_with_logger
  = (Throw (Thrown (JStr "save failed")),
     {| this := {| consoleLevel := 4; loggerRef := Some 0 |};
        global_Box := Some {| Logger := Some 0 |};
        next_ref := 1;
        effects := [ LoggerCall 0 Logger_save [JArr [JStr "error"; JStr "metric"]] ] |}).
Proof. reflexivity. Qed.

Example save_without_logger :
  @save sample_constants quiet_host world_without_logger = (Normal tt, world_without_logger).
Proof. reflexivity. Qed.

Example error_without_logger :
  @error sample_constants quiet_host [JStr "a"; JStr "b"; JStr "c"] world_without_logger
  = (Normal tt,
     {| this := {| consoleLevel := 2; loggerRef := None |};
        global_Box := None;
        next_ref := 0;
        effects := [ ConsoleCall console_error "[error] a, b, c" ] |}).
Proof. reflexivity. Qed.

Example info_without_logger :
  @info sample_constants quiet_host [JStr "a"] world_without_logger
  = (Normal tt, world_without_logger).
Proof. reflexivity. Qed.

Example warn_with_logger :
  effects (snd (@warn sample_constants quiet_host [JStr "a"; JNum 1]
                  {| this := {| consoleLevel := 1; loggerRef := Some 7 |};
                     global_Box := None; next_ref := 8; effects := [] |}))
  = [ ConsoleCall console_warn "[warning] a, ";
      LoggerCall 7 Logger_warn [JStr "a"; JNum 1] ].
Proof. reflexivity. Qed.

Example constructor_installs_logger :
  @constructor sample_constants quiet_host
     {| config_consoleLevel := Some 3%Z; config_object := JNull |}
     {| this := {| consoleLevel := 0; loggerRef := None |};
        global_Box := Some {| Logger := None |};
        next_ref := 5; effects := [] |}
  = (Normal tt,
     {| this := {| consoleLevel := 3; loggerRef := Some 5 |};
        global_Box := Some {| Logger := Some 5 |};
        next_ref := 6;
        effects := [ LoggerNew 5 {| config_consoleLevel := Some 3%Z;
                                    config_object := JNull |} ] |}).
Proof. reflexivity. Qed.

Lemma sample_levels_ordered : @levels_ordered sample_constants.
Proof. unfold levels_ordered. simpl. lia. Defined.

Lemma sample_types_distinct : @types_distinct sample_constants.
Proof. apply nodupb_sound. reflexivity. Defined.

Lemma canPrintLog_iff_severity_witness :
  @levels_ordered sample_constants /\
  @types_distinct sample_constants /\
  (forall L : LogType,
      @canPrintLog sample_constants {| consoleLevel := 2; loggerRef := None |}
                   (@LOG_TYPES sample_constants L) = true <->
      severity (type_severity L) >= severity level_warning).
Proof.
  split; [exact sample_levels_ordered|].
  split; [exact sample_types_distinct|].
  exact (proj1 (@canPrintLog_iff_severity sample_constants
                  sample_levels_ordered sample_types_distinct
                  level_warning {| consoleLevel := 2; loggerRef := None |} eq_refl)).
Defined.

Lemma save_persists_before_clear_witness :
  found_logger world_with_logger = Some 0 /\
  exists rest : list Effect,
    effects (snd (@save sample_constants quiet_host world_with_logger))
    = LoggerCall 0 Logger_save [JArr [JStr "error"; JStr "metric"]] :: rest /\
    (rest = [] \/ rest = [LoggerCall 0 Logger_clearCache []]).
Proof.
  split; [reflexivity|].
  destruct (@save_persists_before_clear sample_constants quiet_host
              world_with_logger 0 eq_refl) as (rest & Heff & Hrest & _).
  exists rest. split; [exact Heff | exact Hrest].
Defined.

Lemma no_logger_no_exception_witness :
  logger_absent world_without_logger /\
  fst (@error sample_constants quiet_host [JStr "a"; JStr "b"] world_without_logger)
  = Normal tt /\
  effects (snd (@error sample_constants quiet_host [JStr "a"; JStr "b"]
                  world_without_logger))
  = [ ConsoleCall console_error "[error] a, b" ].
Proof.
  assert (Ha : logger_absent world_without_logger).
  { split; [reflexivity | left; reflexivity]. }
  split; [exact Ha|].
  destruct (@no_logger_no_exception sample_constants quiet_host
              (call_error [JStr "a"; JStr "b"]) world_without_logger Ha)
    as (Hres & Heff & _).
  split; [exact Hres | exact Heff].
Defined.

(* ================================================================== *)
(** * Further properties *)
(* ================================================================== *)

Open Scope list_scope.

(** ** Constant objects *)

(** X1: no viewer event name is an error code: the values of [VIEWER_EVENT]
    and of [ERROR_CODE] have no string in common. *)
Theorem VIEWER_EVENT_ERROR_CODE_disjoint :
  forall s : string, In s (values VIEWER_EVENT) -> ~ In s (values ERROR_CODE).
Proof.
  intros s Hv He. unfold values in Hv, He. simpl in Hv, He.
  repeat (destruct Hv as [Hv|Hv];
          [subst s; repeat (destruct He as [He|He]; [discriminate He|]); exact He|]).
  exact Hv.
Qed.

Lemma VIEWER_EVENT_ERROR_CODE_disjoint_witness :
  ~ In "error" (values ERROR_CODE).
Proof.
  refine (VIEWER_EVENT_ERROR_CODE_disjoint "error" _).
  simpl. tauto.
Defined.

(** X2: in both objects every property name occurs once, and each viewer
    event other than the one named default is its property name in
    lowercase. *)
Theorem VIEWER_EVENT_names_lowercased :
  NoDup (keys VIEWER_EVENT) /\
  NoDup (keys ERROR_CODE) /\
  (forall k v, In (k, v) VIEWER_EVENT -> k <> "default" -> v = toLowerCase k).
Proof.
  split; [apply nodupb_sound; reflexivity|].
  split; [apply nodupb_sound; reflexivity|].
  intros k v Hin Hk. unfold VIEWER_EVENT in Hin. simpl in Hin.
  repeat (destruct Hin as [Hin|Hin];
          [injection Hin as <- <-; first [reflexivity | now contradiction Hk]|]).
  contradiction.
Qed.

Lemma VIEWER_EVENT_names_lowercased_witness :
  "progressstart" = toLowerCase "progressStart".
Proof.
  refine (proj2 (proj2 VIEWER_EVENT_names_lowercased) "progressStart" "progressstart" _ _).
  - simpl. tauto.
  - discriminate.
Defined.

(** ** Log transformers *)

Section TransformerProperties.
Context {K : LogConstants}.

(** X3: a generic batch of two lists of logs one after the other has the
    events of the first batch followed by the events of the second. *)
Theorem transformGeneric_app (c : string) (logs1 logs2 : list (LogRecord JsVal)) :
  events (transformGeneric c (logs1 ++ logs2))
  = events (transformGeneric c logs1) ++ events (transformGeneric c logs2).
Proof.
  rewrite !transformGeneric_map. cbn [events]. apply map_app.
Qed.

(** X4: a generic batch loses nothing: the timestamps and messages of its
    events are the logs it was made of, and every event carries the event type
    of the batch as code. *)
Theorem transformGeneric_lossless (c : string) (logs : list (LogRecord JsVal)) :
  logs_of_batch (transformGeneric c logs) = logs /\
  Forall (fun e => ev_code e = event_type (transformGeneric c logs))
         (events (transformGeneric c logs)).
Proof.
  rewrite transformGeneric_map. unfold logs_of_batch. cbn [events event_type].
  split.
  - rewrite map_map. cbn [ev_timestamp ev_value].
    induction logs as [|[ts msg] logs IH]; [reflexivity|].
    cbn [map timestamp message]. now rewrite IH.
  - apply Forall_forall. intros e He.
    apply in_map_iff in He as (log & <- & _). reflexivity.
Qed.

(** The metric batch of any list of logs, from the [forEach]. *)
Lemma transformMetrics_run (now : string) (logs : list (LogRecord MetricMessage)) :
  transformMetrics now logs
  = {| event_type := LOG_CODES_metric;
       events :=
         map metric_event (filter is_measure logs) ++
         (if existsb is_control logs
          then [ {| ev_timestamp := now; ev_code := METRIC_CONTROL;
                    ev_value := control_entries logs |} ]
          else []) |}.
Proof.
  unfold transformMetrics. rewrite transformMetrics_fold.
  cbn [app event_type events makeBatchContainer].
  assert (Hex : existsb is_control logs
                = (0 <? length (map control_entry (filter is_control logs)))%nat).
  { rewrite length_map.
    induction logs as [|log logs IH]; [reflexivity|].
    cbn [existsb filter]. destruct (is_control log); [reflexivity | exact IH]. }
  rewrite Hex.
  destruct (0 <? length (map control_entry (filter is_control logs)))%nat.
  - reflexivity.
  - now rewrite app_nil_r.
Qed.

(** X5: the metric batch of any list of logs: the measured metrics in input
    order, then one trailing control event if and only if there is a control
    record. *)
Theorem transformMetrics_shape (now : string) (logs : list (LogRecord MetricMessage)) :
  transformMetrics now logs
  = {| event_type := LOG_CODES_metric;
       events :=
         map metric_event (filter is_measure logs) ++
         (if existsb is_control logs
          then [ {| ev_timestamp := now; ev_code := METRIC_CONTROL;
                    ev_value := control_entries logs |} ]
          else []) |}.
Proof. apply transformMetrics_run. Qed.

(** X6: when no log is a control record, the metric batch has one event per
    log, in order, and does not depend on the clock. *)
Theorem transformMetrics_measures_only
    (now : string) (logs : list (LogRecord MetricMessage)) :
  (forall log, In log logs -> is_control log = false) ->
  transformMetrics now logs
  = {| event_type := LOG_CODES_metric; events := map metric_event logs |}.
Proof.
  intros Hall. rewrite transformMetrics_run.
  assert (Hex : existsb is_control logs = false).
  { destruct (existsb is_control logs) eqn:E; [|reflexivity].
    apply existsb_exists in E as (log & Hin & Hc).
    rewrite (Hall log Hin) in Hc. discriminate Hc. }
  assert (Hf : filter is_measure logs = logs).
  { clear Hex. induction logs as [|log logs IH]; [reflexivity|].
    cbn [filter]. unfold is_measure at 1.
    rewrite (Hall log (or_introl eq_refl)). cbn [negb].
    rewrite IH; [reflexivity|]. intros l Hl. apply Hall. now right. }
  now rewrite Hex, Hf, app_nil_r.
Qed.

Lemma filter_filter_neg {A : Type} (p : A -> bool) (l : list A) :
  filter p (filter (fun x => negb (p x)) l) = [].
Proof.
  induction l as [|x l IH]; [reflexivity|].
  cbn [filter]. destruct (p x) eqn:E; cbn [negb filter]; [exact IH|].
  rewrite E. exact IH.
Qed.

Lemma filter_idem {A : Type} (p : A -> bool) (l : list A) :
  filter p (filter p l) = filter p l.
Proof.
  induction l as [|x l IH]; [reflexivity|].
  cbn [filter]. destruct (p x) eqn:E; [|exact IH].
  cbn [filter]. rewrite E, IH. reflexivity.
Qed.

(** X7: where the control records stand among the measured metrics does not
    matter: the batch is the batch of the measured metrics followed by the
    control records. *)
Theorem transformMetrics_controls_last
    (now : string) (logs : list (LogRecord MetricMessage)) :
  transformMetrics now logs
  = transformMetrics now (filter is_measure logs ++ filter is_control logs).
Proof.
  rewrite !transformMetrics_run. unfold control_entries.
  rewrite !filter_app, existsb_app.
  assert (Hmm : filter is_measure (filter is_measure logs) = filter is_measure logs)
    by apply filter_idem.
  assert (Hcc : filter is_control (filter is_control logs) = filter is_control logs)
    by apply filter_idem.
  assert (Hcm : filter is_control (filter is_measure logs) = [])
    by apply (filter_filter_neg is_control).
  assert (Hmc : filter is_measure (filter is_control logs) = []).
  { clear. induction logs as [|log logs IH]; [reflexivity|].
    cbn [filter]. destruct (is_control log) eqn:E; [|exact IH].
    cbn [filter]. unfold is_measure at 1. rewrite E. exact IH. }
  assert (Hem : existsb is_control (filter is_measure logs) = false).
  { clear. induction logs as [|log logs IH]; [reflexivity|].
    cbn [filter]. unfold is_measure at 1.
    destruct (is_control log) eqn:E; cbn [negb]; [exact IH|].
    cbn [existsb]. now rewrite E. }
  assert (Hec : existsb is_control (filter is_control logs) = existsb is_control logs).
  { clear. induction logs as [|log logs IH]; [reflexivity|].
    cbn [filter existsb]. destruct (is_control log) eqn:E; [|exact IH].
    cbn [existsb]. now rewrite E. }
  rewrite Hmm, Hcc, Hcm, Hmc, Hem, Hec, app_nil_r. reflexivity.
Qed.

(** X8: a metric batch never has more events than there are logs: the events
    are as many as the measured metrics, plus one when there is a control
    record, and every log is either a measured metric or a control record. *)
Theorem transformMetrics_count (now : string) (logs : list (LogRecord MetricMessage)) :
  length (events (transformMetrics now logs))
  = length (filter is_measure logs) + (if existsb is_control logs then 1 else 0) /\
  length (filter is_measure logs) + length (filter is_control logs) = length logs /\
  length (events (transformMetrics now logs)) <= length logs.
Proof.
  rewrite transformMetrics_run. cbn [events].
  rewrite length_app, length_map.
  assert (Hsum : length (filter is_measure logs) + length (filter is_control logs)
                 = length logs).
  { induction logs as [|log logs IH]; [reflexivity|].
    cbn [filter]. unfold is_measure at 1.
    destruct (is_control log); cbn [negb length]; lia. }
  assert (Hex : (if existsb is_control logs then 1 else 0)
                <= length (filter is_control logs)).
  { clear. induction logs as [|log logs IH]; [cbn; lia|].
    cbn [existsb filter]. destruct (is_control log); cbn [orb length]; [lia | exact IH]. }
  repeat split.
  - destruct (existsb is_control logs); reflexivity.
  - exact Hsum.
  - destruct (existsb is_control logs); cbn [length] in *; lia.
Qed.

End TransformerProperties.

Lemma transformMetrics_measures_only_witness :
  @transformMetrics sample_constants "now"
    [ mkLog "t1" (mkMetric "m1" (JNum 5)); mkLog "t2" (mkMetric "m2" (JNum 7)) ]
  = {| event_type := "METRIC";
       events := [ {| ev_timestamp := "t1"; ev_code := "m1"; ev_value := JNum 5 |};
                   {| ev_timestamp := "t2"; ev_code := "m2"; ev_value := JNum 7 |} ] |}.
Proof.
  refine (@transformMetrics_measures_only sample_constants "now"
            [ mkLog "t1" (mkMetric "m1" (JNum 5)); mkLog "t2" (mkMetric "m2" (JNum 7)) ] _).
  intros log [<-|[<-|[]]]; reflexivity.
Defined.

(** ** The log layer *)

Section LogLayerProperties.
Context {K : LogConstants} {host : Host}.

(** *** Running a call *)

Lemma found_none_absent (w : World) :
  found_logger w = None -> logger_absent w.
Proof.
  unfold found_logger, logger_absent.
  destruct (loggerRef (this w)); [discriminate|].
  destruct (global_Box w) as [[[l|]]|]; [discriminate | auto | auto].
Qed.

Lemma guarded_found (body : JS unit) (w : World) (logger : LoggerRef) :
  found_logger w = Some logger ->
  (found <- boxLoggerExists ;; if negb found then ret tt else body) w
  = body (cache logger w).
Proof.
  intros Hf. unfold bind. rewrite (boxLoggerExists_found w logger Hf). reflexivity.
Qed.

Lemma logging_found
    (type : string) (data : list JsVal) (body : JS unit) (w : World) (logger : LoggerRef) :
  found_logger w = Some logger ->
  (printLog type data ;;
   found <- boxLoggerExists ;; if negb found then ret tt else body) w
  = body (cache logger (snd (printLog type data w))).
Proof.
  intros Hf. unfold bind at 1. rewrite printLog_run. cbn [snd].
  now apply guarded_found.
Qed.

(** A call other than [save] with a Logger at hand. *)
Lemma invoke_found_run (c : MethodCall) (w : World) (logger : LoggerRef) :
  found_logger w = Some logger ->
  c <> call_save ->
  invoke c w
  = (match logger_throws (effects w ++ console_output (this w) c)
                         (LoggerCall logger (forwarded_method c) (forwarded_args c)) with
     | None => Normal tt
     | Some v => Throw (Thrown v)
     end,
     add_effects (console_output (this w) c ++
                  [LoggerCall logger (forwarded_method c) (forwarded_args c)])
                 (cache logger w)).
Proof.
  intros Hf Hc.
  destruct c; try congruence; cbn [invoke forwarded_method forwarded_args];
    unfold info, warn, error, metric, setFile, setContentType, setupNetworkLayer, reset;
    first [ rewrite (logging_found _ _ _ w logger Hf), printLog_run
          | rewrite (guarded_found _ w logger Hf) ];
    rewrite loggerRef_call_run with (logger := logger) by reflexivity;
    unfold console_output, add_effects, cache;
    cbn [printed snd this global_Box next_ref effects consoleLevel loggerRef app];
    rewrite ?app_nil_r; first [reflexivity | rewrite app_assoc; reflexivity].
Qed.

(** [save] with a Logger at hand, in the same terms. *)
Lemma save_found_run (w : World) (logger : LoggerRef) :
  found_logger w = Some logger ->
  let persist := LoggerCall logger Logger_save [saved_kinds] in
  let clear := LoggerCall logger Logger_clearCache [] in
  save w
  = match logger_throws (effects w) persist with
    | Some v => (Throw (Thrown v), add_effects [persist] (cache logger w))
    | None =>
        (match logger_throws (effects w ++ [persist]) clear with
         | None => Normal tt
         | Some v => Throw (Thrown v)
         end,
         add_effects [persist; clear] (cache logger w))
    end.
Proof.
  intros Hf persist clear. rewrite (save_run w logger Hf).
  fold persist clear.
  destruct (logger_throws (effects w) persist); [reflexivity|].
  unfold add_effects, cache. cbn [this global_Box next_ref effects].
  now rewrite <- app_assoc.
Qed.

(** Any call without Logger. *)
Lemma invoke_absent_run (c : MethodCall) (w : World) :
  found_logger w = None ->
  invoke c w = (Normal tt, add_effects (console_output (this w) c) w).
Proof.
  intros Hf. apply found_none_absent in Hf.
  destruct c; cbn [invoke];
    unfold info, warn, error, metric, setFile, setContentType,
           setupNetworkLayer, reset, save;
    first [ rewrite (logging_absent _ _ _ w Hf), printLog_run
          | rewrite (guarded_absent _ w Hf) ];
    unfold console_output, add_effects; cbn [printed snd];
    rewrite ?app_nil_r; destruct w; reflexivity.
Qed.

(** *** What a call does *)

(** X9: with a Logger at hand, every logging or pass-through call other than
    [save] makes exactly one Logger call, after the console line if one is
    printed: the method of the same name on that Logger, with the arguments it
    was given.  The call of the layer throws exactly what the Logger call
    throws. *)
Theorem invoke_forwards (c : MethodCall) (w : World) (logger : LoggerRef) :
  found_logger w = Some logger ->
  c <> call_save ->
  effects (snd (invoke c w))
  = effects w ++ console_output (this w) c ++
    [LoggerCall logger (forwarded_method c) (forwarded_args c)] /\
  fst (invoke c w)
  = match logger_throws (effects w ++ console_output (this w) c)
                        (LoggerCall logger (forwarded_method c) (forwarded_args c)) with
    | None => Normal tt
    | Some v => Throw (Thrown v)
    end.
Proof.
  intros Hf Hc. rewrite (invoke_found_run c w logger Hf Hc).
  split; reflexivity.
Qed.

(** X10: whatever the world, the effects of a call are the console line that
    the threshold permits, which does not depend on a Logger being there,
    followed by at most two Logger calls; a call never constructs a Logger. *)
Theorem invoke_effects (c : MethodCall) (w : World) :
  exists calls : list Effect,
    effects (snd (invoke c w)) = effects w ++ console_output (this w) c ++ calls /\
    forallb is_logger_call calls = true /\
    length calls <= 2.
Proof.
  destruct (found_logger w) as [logger|] eqn:Hf.
  - destruct c;
      try (eexists; rewrite (invoke_found_run _ w logger Hf) by discriminate;
           split; [reflexivity | split; [reflexivity | cbn; lia]]).
    cbn [invoke]. rewrite (save_found_run w logger Hf).
    destruct (logger_throws (effects w) (LoggerCall logger Logger_save [saved_kinds])).
    + exists [LoggerCall logger Logger_save [saved_kinds]].
      split; [reflexivity | split; [reflexivity | cbn; lia]].
    + exists [LoggerCall logger Logger_save [saved_kinds];
              LoggerCall logger Logger_clearCache []].
      split; [reflexivity | split; [reflexivity | cbn; lia]].
  - exists []. rewrite (invoke_absent_run c w Hf), app_nil_r.
    split; [reflexivity | split; [reflexivity | cbn; lia]].
Qed.

(** X11: no call changes the console level, [global.Box] or the supply of
    fresh references, whether it returns or throws. *)
Theorem invoke_preserves (c : MethodCall) (w : World) :
  consoleLevel (this (snd (invoke c w))) = consoleLevel (this w) /\
  global_Box (snd (invoke c w)) = global_Box w /\
  next_ref (snd (invoke c w)) = next_ref w.
Proof.
  destruct (found_logger w) as [logger|] eqn:Hf.
  - destruct c;
      try (rewrite (invoke_found_run _ w logger Hf) by discriminate;
           repeat split; reflexivity).
    cbn [invoke]. rewrite (save_found_run w logger Hf).
    destruct (logger_throws (effects w) (LoggerCall logger Logger_save [saved_kinds]));
      repeat split; reflexivity.
  - rewrite (invoke_absent_run c w Hf). repeat split; reflexivity.
Qed.

(** X12: a call that finds a Logger keeps it in [loggerRef], whether the call
    returns or throws. *)
Theorem invoke_caches_logger (c : MethodCall) (w : World) (logger : LoggerRef) :
  found_logger w = Some logger ->
  loggerRef (this (snd (invoke c w))) = Some logger.
Proof.
  intros Hf.
  destruct c;
    try (rewrite (invoke_found_run _ w logger Hf) by discriminate; reflexivity).
  cbn [invoke]. rewrite (save_found_run w logger Hf).
  destruct (logger_throws (effects w) (LoggerCall logger Logger_save [saved_kinds]));
    reflexivity.
Qed.

(** X13: once a Logger is cached, [global.Box] is no longer consulted: with
    any other [global.Box] a call has the same result, the same effects and
    leaves the same layer. *)
Theorem cached_logger_wins
    (c : MethodCall) (w : World) (logger : LoggerRef) (b : option BoxNamespace) :
  loggerRef (this w) = Some logger ->
  invoke c (with_global_Box b w)
  = (fst (invoke c w), with_global_Box b (snd (invoke c w))).
Proof.
  intros Hl.
  assert (Hf : found_logger w = Some logger)
    by (unfold found_logger; now rewrite Hl).
  assert (Hf' : found_logger (with_global_Box b w) = Some logger)
    by (unfold found_logger, with_global_Box; cbn [this]; now rewrite Hl).
  destruct c;
    try (rewrite (invoke_found_run _ w logger Hf),
                 (invoke_found_run _ _ logger Hf') by discriminate; reflexivity).
  cbn [invoke]. rewrite (save_found_run w logger Hf), (save_found_run _ logger Hf').
  cbn [with_global_Box effects].
  destruct (logger_throws (effects w) (LoggerCall logger Logger_save [saved_kinds]));
    reflexivity.
Qed.

(** *** Printing *)

(** X14: lowering the threshold never silences a log type: what may print
    under a console level may print under every lower one. *)
Theorem canPrintLog_lower_threshold (self self' : LogLayer) (type : string) :
  (consoleLevel self' <= consoleLevel self)%Z ->
  canPrintLog self type = true ->
  canPrintLog self' type = true.
Proof.
  unfold canPrintLog. intros Hle.
  rewrite !Z.leb_le. lia.
Qed.

(** X15: a log type that is none of warning, error and uncaught error is
    treated as information: it prints when the threshold is at most the info
    level, and with [console.log]. *)
Theorem other_types_as_info (self : LogLayer) (type : string) :
  type <> LOG_TYPES_warning ->
  type <> LOG_TYPES_error ->
  type <> LOG_TYPES_uncaught_error ->
  canPrintLog self type = (consoleLevel self <=? CONSOLE_LEVELS_info)%Z /\
  getConsoleFunction type = console_log.
Proof.
  intros Hw He Hu.
  apply String.eqb_neq in Hw, He, Hu.
  unfold canPrintLog, getConsoleFunction. rewrite Hw, He, Hu.
  destruct (String.eqb type LOG_TYPES_info); split; reflexivity.
Qed.

(** *** Construction *)

(** The constructor up to [setupGlobalLogger]: the level is set. *)
Lemma constructor_run (config : Config) (w : World) :
  constructor config w
  = setupGlobalLogger config
      {| this := {| consoleLevel := configured_level config; loggerRef := None |};
         global_Box := global_Box w;
         next_ref := next_ref w;
         effects := effects w |}.
Proof.
  unfold constructor, configured_level.
  destruct (config_consoleLevel config) as [level|]; [destruct (level =? 0)%Z|];
    reflexivity.
Qed.

(** X16: when [global.Box] does not exist the constructor throws a
    [TypeError]; no Logger is constructed or cached and [global.Box] still
    does not exist. *)
Theorem constructor_without_Box_throws (config : Config) (w : World) :
  global_Box w = None ->
  fst (constructor config w) = Throw TypeError /\
  effects (snd (constructor config w)) = effects w /\
  loggerRef (this (snd (constructor config w))) = None /\
  global_Box (snd (constructor config w)) = None.
Proof.
  intros Hb. rewrite constructor_run, Hb. repeat split; reflexivity.
Qed.

(** The constructor when [global.Box.Logger] exists. *)
Lemma constructor_existing_run (config : Config) (w : World) (logger : LoggerRef) :
  global_Box w = Some {| Logger := Some logger |} ->
  constructor config w
  = (Normal tt,
     {| this := {| consoleLevel := configured_level config; loggerRef := Some logger |};
        global_Box := global_Box w;
        next_ref := next_ref w;
        effects := effects w |}).
Proof.
  intros Hb. rewrite constructor_run, Hb. reflexivity.
Qed.

(** X17: when [global.Box] already has a Logger, the constructor constructs
    none: it caches the existing one and has no effect. *)
Theorem constructor_reuses_Logger (config : Config) (w : World) (logger : LoggerRef) :
  global_Box w = Some {| Logger := Some logger |} ->
  constructor config w
  = (Normal tt,
     {| this := {| consoleLevel := configured_level config; loggerRef := Some logger |};
        global_Box := global_Box w;
        next_ref := next_ref w;
        effects := effects w |}).
Proof. apply constructor_existing_run. Qed.

(** The constructor when [global.Box] exists without Logger. *)
Lemma constructor_fresh_run (config : Config) (w : World) :
  global_Box w = Some {| Logger := None |} ->
  let logger := next_ref w in
  let made := effects w ++ [LoggerNew logger config] in
  constructor config w
  = match logger_throws (effects w) (LoggerNew logger config) with
    | None =>
        (Normal tt,
         {| this := {| consoleLevel := configured_level config;
                       loggerRef := Some logger |};
            global_Box := Some {| Logger := Some logger |};
            next_ref := S logger;
            effects := made |})
    | Some v =>
        (Throw (Thrown v),
         {| this := {| consoleLevel := configured_level config; loggerRef := None |};
            global_Box := Some {| Logger := None |};
            next_ref := S logger;
            effects := made |})
    end.
Proof.
  intros Hb logger made. rewrite constructor_run, Hb.
  unfold setupGlobalLogger, bind, new_Logger, external. cbn.
  fold logger.
  destruct (logger_throws (effects w) (LoggerNew logger config)); reflexivity.
Qed.

(** X18: when [global.Box] exists without a Logger, the constructor
    constructs one from [config].  If that returns, the new Logger is both
    [global.Box.Logger] and the cached reference; if it throws, the exception
    is passed on and neither is set. *)
Theorem constructor_installs_Logger (config : Config) (w : World) :
  global_Box w = Some {| Logger := None |} ->
  let logger := next_ref w in
  let made := effects w ++ [LoggerNew logger config] in
  constructor config w
  = match logger_throws (effects w) (LoggerNew logger config) with
    | None =>
        (Normal tt,
         {| this := {| consoleLevel := configured_level config;
                       loggerRef := Some logger |};
            global_Box := Some {| Logger := Some logger |};
            next_ref := S logger;
            effects := made |})
    | Some v =>
        (Throw (Thrown v),
         {| this := {| consoleLevel := configured_level config; loggerRef := None |};
            global_Box := Some {| Logger := None |};
            next_ref := S logger;
            effects := made |})
    end.
Proof. apply constructor_fresh_run. Qed.

(** X19: the constructed layer has the console level of [config] when that
    is present and not zero, and the silent level otherwise; with the levels
    numbered in order, a layer constructed without level, or with level zero,
    prints nothing. *)
Theorem constructor_level (config : Config) (w : World) :
  consoleLevel (this (snd (constructor config w))) = configured_level config /\
  (levels_ordered ->
   config_consoleLevel config = None \/ config_consoleLevel config = Some 0%Z ->
   forall type : string,
     canPrintLog (this (snd (constructor config w))) type = false).
Proof.
  assert (Hlevel : consoleLevel (this (snd (constructor config w)))
                   = configured_level config).
  { rewrite constructor_run.
    destruct (global_Box w) as [[[l|]]|]; try reflexivity.
    unfold setupGlobalLogger, bind, new_Logger, external. cbn.
    destruct (logger_throws (effects w) (LoggerNew (next_ref w) config)); reflexivity. }
  split; [exact Hlevel|].
  intros (Hiw & Hwe & Hes) Hcfg type.
  assert (Hsilent : configured_level config = CONSOLE_LEVELS_silent).
  { unfold configured_level. destruct Hcfg as [-> | ->]; reflexivity. }
  destruct (canPrintLog_typeValue (this (snd (constructor config w))) type)
    as [E|[E|E]]; rewrite E, Hlevel, Hsilent; apply Z.leb_gt; lia.
Qed.

(** X20: after a constructor that returned, the cached reference and
    [global.Box.Logger] are one and the same Logger, and constructing a second
    layer constructs no second Logger: it returns, has no effect and caches
    that same Logger. *)
Theorem constructor_singleton (config config' : Config) (w : World) :
  fst (constructor config w) = Normal tt ->
  let w1 := snd (constructor config w) in
  exists logger : LoggerRef,
    loggerRef (this w1) = Some logger /\
    global_Box w1 = Some {| Logger := Some logger |} /\
    constructor config' w1
    = (Normal tt,
       {| this := {| consoleLevel := configured_level config';
                     loggerRef := Some logger |};
          global_Box := global_Box w1;
          next_ref := next_ref w1;
          effects := effects w1 |}).
Proof.
  intros Hok w1.
  assert (Hshape : exists logger,
             loggerRef (this w1) = Some logger /\
             global_Box w1 = Some {| Logger := Some logger |}).
  { subst w1. revert Hok.
    destruct (global_Box w) as [[[l|]]|] eqn:Hb.
    - rewrite (constructor_existing_run config w l Hb). intros _.
      exists l. cbn [snd this loggerRef global_Box]. auto.
    - rewrite (constructor_fresh_run config w Hb).
      destruct (logger_throws (effects w) (LoggerNew (next_ref w) config));
        [discriminate|].
      intros _. exists (next_ref w). split; reflexivity.
    - rewrite constructor_run, Hb. discriminate. }
  destruct Hshape as (logger & Hl & Hb).
  exists logger. repeat split; trivial.
  now apply constructor_existing_run.
Qed.

End LogLayerProperties.

(** ** The further properties on the sample constants *)

Lemma invoke_forwards_witness :
  effects (snd (@invoke sample_constants quiet_host (call_warn [JStr "a"])
                  world_with_logger))
  = [ LoggerCall 0 Logger_warn [JStr "a"] ] /\
  fst (@invoke sample_constants quiet_host (call_warn [JStr "a"]) world_with_logger)
  = Normal tt.
Proof.
  refine (@invoke_forwards sample_constants quiet_host (call_warn [JStr "a"])
            world_with_logger 0 _ _).
  - reflexivity.
  - discriminate.
Defined.

Lemma invoke_caches_logger_witness :
  loggerRef (this (snd (@invoke sample_constants failing_save_host call_save
                          world_with_logger)))
  = Some 0.
Proof.
  refine (@invoke_caches_logger sample_constants failing_save_host call_save
            world_with_logger 0 _).
  reflexivity.
Defined.

Lemma cached_logger_wins_witness :
  let w := {| this := {| consoleLevel := 1; loggerRef := Some 7 |};
              global_Box := None; next_ref := 8; effects := [] |} in
  let b := Some {| Logger := Some 0 |} in
  @invoke sample_constants quiet_host call_reset (with_global_Box b w)
  = (fst (@invoke sample_constants quiet_host call_reset w),
     with_global_Box b (snd (@invoke sample_constants quiet_host call_reset w))).
Proof.
  intros w b.
  refine (@cached_logger_wins sample_constants quiet_host call_reset w 7 b _).
  reflexivity.
Defined.

Lemma canPrintLog_lower_threshold_witness :
  @canPrintLog sample_constants {| consoleLevel := 1; loggerRef := None |} "error" = true.
Proof.
  refine (@canPrintLog_lower_threshold sample_constants
            {| consoleLevel := 3; loggerRef := None |}
            {| consoleLevel := 1; loggerRef := None |} "error" _ _).
  - simpl. lia.
  - reflexivity.
Defined.

Lemma other_types_as_info_witness :
  @canPrintLog sample_constants {| consoleLevel := 2; loggerRef := None |} "debug"
  = (2 <=? 1)%Z /\
  @getConsoleFunction sample_constants "debug" = console_log.
Proof.
  refine (@other_types_as_info sample_constants
            {| consoleLevel := 2; loggerRef := None |} "debug" _ _ _);
    simpl; discriminate.
Defined.

Lemma constructor_without_Box_throws_witness :
  fst (@constructor sample_constants quiet_host
         {| config_consoleLevel := Some 1%Z; config_object := JNull |}
         world_without_logger)
  = Throw TypeError.
Proof.
  refine (proj1 (@constructor_without_Box_throws sample_constants quiet_host
                   {| config_consoleLevel := Some 1%Z; config_object := JNull |}
                   world_without_logger _)).
  reflexivity.
Defined.

Lemma constructor_reuses_Logger_witness :
  @constructor sample_constants quiet_host
     {| config_consoleLevel := Some 1%Z; config_object := JNull |} world_with_logger
  = (Normal tt,
     {| this := {| consoleLevel := 1; loggerRef := Some 0 |};
        global_Box := Some {| Logger := Some 0 |};
        next_ref := 1;
        effects := [] |}).
Proof.
  refine (@constructor_reuses_Logger sample_constants quiet_host
            {| config_consoleLevel := Some 1%Z; config_object := JNull |}
            world_with_logger 0 _).
  reflexivity.
Defined.

Lemma constructor_installs_Logger_witness :
  @constructor sample_constants failing_new_host
     {| config_consoleLevel := None; config_object := JNull |} world_with_empty_Box
  = (Throw (Thrown (JStr "no logger")),
     {| this := {| consoleLevel := 4; loggerRef := None |};
        global_Box := Some {| Logger := None |};
        next_ref := 6;
        effects := [ LoggerNew 5 {| config_consoleLevel := None;
                                    config_object := JNull |} ] |}).
Proof.
  refine (@constructor_installs_Logger sample_constants failing_new_host
            {| config_consoleLevel := None; config_object := JNull |}
            world_with_empty_Box _).
  reflexivity.
Defined.

Lemma constructor_level_witness :
  @canPrintLog sample_constants
     (this (snd (@constructor sample_constants quiet_host
                   {| config_consoleLevel := Some 0%Z; config_object := JNull |}
                   world_with_empty_Box)))
     "error"
  = false.
Proof.
  refine (proj2 (@constructor_level sample_constants quiet_host
                   {| config_consoleLevel := Some 0%Z; config_object := JNull |}
                   world_with_empty_Box) _ _ "error").
  - unfold levels_ordered. simpl. lia.
  - right. reflexivity.
Defined.

Lemma constructor_singleton_witness :
  exists logger : LoggerRef,
    fst (@constructor sample_constants quiet_host
           {| config_consoleLevel := Some 1%Z; config_object := JNull |}
           (snd (@constructor sample_constants quiet_host
                   {| config_consoleLevel := None; config_object := JNull |}
                   world_with_empty_Box)))
    = Normal tt /\
    global_Box (snd (@constructor sample_constants quiet_host
                       {| config_consoleLevel := None; config_object := JNull |}
                       world_with_empty_Box))
    = Some {| Logger := Some logger |}.
Proof.
  destruct (@constructor_singleton sample_constants quiet_host
              {| config_consoleLevel := None; config_object := JNull |}
              {| config_consoleLevel := Some 1%Z; config_object := JNull |}
              world_with_empty_Box eq_refl) as (logger & _ & Hb & Hrun).
  exists logger. split; [now rewrite Hrun | exact Hb].
Defined.
